(** * A shallow embedding of the data pipeline of [components/table/Table.tsx]

    The table component derives its visible rows from the raw data source
    through [getSortData], [getFilterData] and the page slice of [pageData],
    and aggregates sorter, filter and pagination changes into one [onChange]
    notification through [triggerOnChange].  The sort and filter engines live
    in [hooks/useSorter] and [hooks/useFilter]; the composition below is
    generic in them.  JavaScript numbers are modelled as [Z], [undefined]
    fields as [None], and [devWarning] calls as diagnostics appended to a
    list (a diagnostic is emitted when the warned condition is false). *)

From stdpp Require Import base list gmap strings.
From Stdlib Require Import ZArith Lia.

Open Scope Z_scope.

(* ------------------------------------------------------------------ *)
(** ** JavaScript helpers *)

Module Js.

(** [Array.prototype.slice(start, end)]: negative indices count from the
    end of the array, indices are clamped to [0, length]. *)
Definition rel_index (len i : Z) : Z :=
  if i <? 0 then Z.max (len + i) 0 else Z.min i len.

Definition slice {A} (l : list A) (start stop : Z) : list A :=
  let len := Z.of_nat (length l) in
  let s := rel_index len start in
  let e := rel_index len stop in
  take (Z.to_nat (e - s)) (drop (Z.to_nat s) l).

(** JavaScript truthiness of an optional number ([undefined] and [0] are
    falsy). *)
Definition truthy (o : option Z) : bool :=
  match o with
  | Some n => negb (n =? 0)
  | None => false
  end.

(** [x < y] where [y] may be [undefined]: a comparison with [undefined]
    is [false]. *)
Definition lt_opt (x : Z) (y : option Z) : bool :=
  match y with
  | Some n => x <? n
  | None => false
  end.

End Js.

(* ------------------------------------------------------------------ *)
(** ** Diagnostics *)

(** The messages [devWarning] is called with in [Table.tsx]. *)
Inductive diagnostic :=
  | WarnRowKeyIndex      (* `index` parameter of `rowKey` function is deprecated *)
  | WarnCurrentPositive  (* `current` should be positive number *)
  | WarnAsyncTotal.      (* `dataSource` length is less than `pagination.total` ... *)

Definition diagnostic_eq_dec : EqDecision diagnostic.
Proof. solve_decision. Defined.
#[global] Existing Instance diagnostic_eq_dec.

(** [devWarning(valid, component, message)]: emits [message] when [valid]
    is false. *)
Definition devWarning (valid : bool) (d : diagnostic) : list diagnostic :=
  if valid then [] else [d].

(* ------------------------------------------------------------------ *)
(** ** Pagination props and merged pagination *)

(** [props.pagination : false | TablePaginationConfig | undefined]; of a
    configuration object only whether it carries an [onChange] handler
    matters to [Table.tsx]. *)
Inductive pagination_prop :=
  | PagFalse
  | PagUndefined
  | PagConfig (has_onChange : bool).

Definition is_pag_false (p : pagination_prop) : bool :=
  match p with PagFalse => true | _ => false end.

(** The fields of [mergedPagination.value] read by [pageData]. *)
Record merged_pagination := MergedPagination {
  mp_current : option Z;
  mp_pageSize : option Z;
  mp_total : option Z;
}.

Definition DEFAULT_PAGE_SIZE : Z := 10.

Section PageData.
Context {R : Type}.

(** [pageData] (lines 301-323): the diagnostics it emits and the rows it
    returns, for the value of [mergedData]. *)
Definition pageData (pagination : pagination_prop) (mp : merged_pagination)
    (mergedData : list R) : list diagnostic * list R :=
  if is_pag_false pagination || negb (Js.truthy (mp_pageSize mp)) then
    ([], mergedData)
  else
    let current := default 1 (mp_current mp) in
    let total := mp_total mp in
    let pageSize := default DEFAULT_PAGE_SIZE (mp_pageSize mp) in
    let w1 := devWarning (0 <? current) WarnCurrentPositive in
    let len := Z.of_nat (length mergedData) in
    if Js.lt_opt len total then
      if pageSize <? len then
        (w1 ++ devWarning false WarnAsyncTotal,
         Js.slice mergedData ((current - 1) * pageSize) (current * pageSize))
      else (w1, mergedData)
    else (w1, Js.slice mergedData ((current - 1) * pageSize) (current * pageSize)).

End PageData.

(* ------------------------------------------------------------------ *)
(** ** Change events *)

(** The [pagination] member of [ChangeEventInfo]: a plain object whose
    [current], [pageSize] and [total] may be absent ([{}] has none). *)
Record pag_param := PagParam {
  pp_current : option Z;
  pp_pageSize : option Z;
  pp_total : option Z;
}.

Definition empty_pag_param : pag_param := PagParam None None None.

(** [TableAction]. *)
Inductive table_action := ActSort | ActFilter | ActPaginate.

(** The props [triggerOnChange] reads. [tp_scroll] is [props.scroll]:
    [None] when absent, otherwise the value of its
    [scrollToFirstRowOnChange] field ([None] when that is undefined). *)
Record table_props {R : Type} := TableProps {
  tp_dataSource : list R;
  tp_childrenColumnName : string;
  tp_pagination : pagination_prop;
  tp_onChange : bool;
  tp_scroll : option (option bool);
}.
Arguments table_props : clear implicits.
Arguments TableProps {R}.

(** [props.dataSource || EMPTY_LIST], with an absent data source as []. *)
Definition rawData {R} (p : table_props R) : list R := tp_dataSource p.

Section Pipeline.
Context {R Filters Sorter FilterState SortState : Type}.

(** [getSortData(data, sortStates, childrenColumnName)] of [useSorter] and
    [getFilterData(data, filterStates)] of [useFilter]. *)
Variable getSortData : list R -> list SortState -> string -> list R.
Variable getFilterData : list R -> list FilterState -> list R.

(** [sortedData] (lines 239-241) and [mergedData] (line 263). *)
Definition sortedData (p : table_props R) (sortStates : list SortState) : list R :=
  getSortData (rawData p) sortStates (tp_childrenColumnName p).

Definition mergedData (p : table_props R) (sortStates : list SortState)
    (filterStates : list FilterState) : list R :=
  getFilterData (sortedData p sortStates) filterStates.

(** The snapshot [changeEventInfo] once [watchEffect] has filled it in
    ([resetPagination] is the reset operation of the state below). *)
Record change_event_info := ChangeEventInfo {
  ce_pagination : pag_param;
  ce_filters : Filters;
  ce_sorter : Sorter;
  ce_filterStates : list FilterState;
  ce_sorterStates : list SortState;
}.

(** A [Partial<ChangeEventInfo>] passed to [triggerOnChange]. *)
Record change_info := ChangeInfo {
  ci_pagination : option pag_param;
  ci_filters : option Filters;
  ci_sorter : option Sorter;
  ci_filterStates : option (list FilterState);
  ci_sorterStates : option (list SortState);
}.

(** The observable effects of [triggerOnChange], in the order they
    happen. *)
Inductive event :=
  | EvResetPagination
  | EvPaginationOnChange (current : Z) (pageSize : option Z)
  | EvScrollTo
  | EvOnChange (pagination : pag_param) (filters : Filters) (sorter : Sorter)
      (currentDataSource : list R) (action : table_action).

(** The component state [triggerOnChange] touches: the shared snapshot
    and the current page held by [usePagination]. *)
Record table_state := TableState {
  ts_info : change_event_info;
  ts_innerCurrent : option Z;
}.

(** Modelled from the spec: the reset operation [resetPagination] returned
    by [usePagination] (hooks/usePagination.ts, not part of this
    source), which per the spec forces [current] to 1. *)
Definition resetPagination (st : table_state) : table_state :=
  TableState (ts_info st) (Some 1).

Definition set_pag_current (c : option Z) (pp : pag_param) : pag_param :=
  PagParam c (pp_pageSize pp) (pp_total pp).

Definition set_info_pagination (pp : pag_param) (ci : change_event_info)
    : change_event_info :=
  ChangeEventInfo pp (ce_filters ci) (ce_sorter ci) (ce_filterStates ci)
    (ce_sorterStates ci).

(** [triggerOnChange(info, action, reset)] (lines 173-211).  [changeInfo]
    is a shallow copy, so when [info] brings no [pagination] its
    [pagination] is the snapshot's own object and the reset's assignment
    [changeInfo.pagination.current = 1] writes through to the snapshot. *)
Definition triggerOnChange (p : table_props R) (bodyMounted : bool)
    (st : table_state) (info : change_info) (action : table_action)
    (reset : bool) : table_state * list event :=
  let snap := ts_info st in
  let pag0 := default (ce_pagination snap) (ci_pagination info) in
  let filters := default (ce_filters snap) (ci_filters info) in
  let sorter := default (ce_sorter snap) (ci_sorter info) in
  let filterStates := default (ce_filterStates snap) (ci_filterStates info) in
  let sorterStates := default (ce_sorterStates snap) (ci_sorterStates info) in
  let '(st1, pag, ev_reset) :=
    if reset then
      let st0 := resetPagination st in
      let pag := if Js.truthy (pp_current pag0)
                 then set_pag_current (Some 1) pag0 else pag0 in
      let snap' := match ci_pagination info with
                   | None => set_info_pagination pag (ts_info st0)
                   | Some _ => ts_info st0
                   end in
      let ev_pag := match tp_pagination p with
                    | PagConfig true => [EvPaginationOnChange 1 (pp_pageSize pag)]
                    | _ => []
                    end in
      (TableState snap' (ts_innerCurrent st0), pag, EvResetPagination :: ev_pag)
    else (st, pag0, []) in
  let ev_scroll := match tp_scroll p with
                   | Some stfr =>
                       if bool_decide (stfr <> Some false) && bodyMounted
                       then [EvScrollTo] else []
                   | None => []
                   end in
  let ev_change :=
    if tp_onChange p then
      [EvOnChange pag filters sorter
         (getFilterData (getSortData (rawData p) sorterStates (tp_childrenColumnName p))
            filterStates)
         action]
    else [] in
  (st1, ev_reset ++ ev_scroll ++ ev_change).

(** [onSorterChange] (lines 220-229). *)
Definition onSorterChange p bodyMounted st (sorter : Sorter)
    (sorterStates : list SortState) :=
  triggerOnChange p bodyMounted st
    (ChangeInfo None None (Some sorter) None (Some sorterStates)) ActSort false.

(** [onFilterChange] (lines 244-253). *)
Definition onFilterChange p bodyMounted st (filters : Filters)
    (filterStates : list FilterState) :=
  triggerOnChange p bodyMounted st
    (ChangeInfo None (Some filters) None (Some filterStates) None) ActFilter true.

(** [onPaginationChange] (lines 271-278):
    [{ ...changeEventInfo.pagination, current, pageSize }]. *)
Definition onPaginationChange p bodyMounted st (current pageSize : Z) :=
  let pp := ce_pagination (ts_info st) in
  triggerOnChange p bodyMounted st
    (ChangeInfo (Some (PagParam (Some current) (Some pageSize) (pp_total pp)))
       None None None None) ActPaginate false.

(** [watchEffect] (lines 286-298); [param] is the value of
    [getPaginationParam(props.pagination, mergedPagination.value)]. *)
Definition watchEffect (p : table_props R) (sorters : Sorter)
    (sortStates : list SortState) (filters : Filters)
    (filterStates : list FilterState) (param : pag_param) : change_event_info :=
  ChangeEventInfo
    (if is_pag_false (tp_pagination p) then empty_pag_param else param)
    filters sorters filterStates sortStates.

(** The user interactions that reach [triggerOnChange]. *)
Inductive interaction :=
  | IFilter (filters : Filters) (filterStates : list FilterState)
  | ISort (sorter : Sorter) (sorterStates : list SortState)
  | IPage (current pageSize : Z).

Definition interact p bodyMounted st (i : interaction) :=
  match i with
  | IFilter f fs => onFilterChange p bodyMounted st f fs
  | ISort s ss => onSorterChange p bodyMounted st s ss
  | IPage c ps => onPaginationChange p bodyMounted st c ps
  end.

(** The pagination widget, the only caller of [onPaginationChange], is
    rendered when [pagination !== false && mergedPagination.value?.total]
    (line 389). *)
Definition pagination_rendered (p : table_props R) (mp : merged_pagination) : bool :=
  negb (is_pag_false (tp_pagination p)) && Js.truthy (mp_total mp).

Definition interaction_enabled p mp (i : interaction) : bool :=
  match i with
  | IPage _ _ => pagination_rendered p mp
  | _ => true
  end.

(** A run of the component: interactions, and re-runs of [watchEffect]
    after the reactive values it reads have changed. *)
Inductive step :=
  | SInteract (i : interaction)
  | SSync (sorters : Sorter) (sortStates : list SortState) (filters : Filters)
      (filterStates : list FilterState) (param : pag_param).

Fixpoint run p mp bodyMounted (st : table_state) (steps : list step)
    : table_state * list event :=
  match steps with
  | [] => (st, [])
  | SInteract i :: rest =>
      if interaction_enabled p mp i then
        let '(st1, ev1) := interact p bodyMounted st i in
        let '(st2, ev2) := run p mp bodyMounted st1 rest in
        (st2, ev1 ++ ev2)
      else run p mp bodyMounted st rest
  | SSync s ss f fs prm :: rest =>
      run p mp bodyMounted
        (TableState (watchEffect p s ss f fs prm) (ts_innerCurrent st)) rest
  end.

End Pipeline.

(* ------------------------------------------------------------------ *)
(** ** Row keys *)

Module RowKey.

(** The JavaScript values a record field can hold, as far as keys go. *)
Inductive jsval :=
  | JUndefined
  | JNum (n : Z)
  | JStr (s : string).

(** A record is a JavaScript object (a map from field names to values);
    [None] stands for a [null] or [undefined] record. *)
Abbreviation record := (option (gmap string jsval)).

(** [props.rowKey : string | GetRowKey]: a field name, or a function of
    [(record, index)] together with its declared arity
    ([Function.prototype.length]). *)
Inductive row_key_prop :=
  | RowKeyFn (arity : nat) (f : record -> Z -> jsval)
  | RowKeyField (field : string).

(** [getRowKey] (lines 160-166): the function itself, or
    [record => record?.[props.rowKey]]. *)
Definition getRowKey (rk : row_key_prop) : record -> Z -> jsval :=
  match rk with
  | RowKeyFn _ f => f
  | RowKeyField field =>
      fun r _ => match r with
                 | Some o => default JUndefined (o !! field)
                 | None => JUndefined
                 end
  end.

(** The [devWarning] at the start of [setup] (lines 110-114):
    [!(typeof props.rowKey === 'function' && props.rowKey.length > 1)]. *)
Definition rowKey_warning (rk : row_key_prop) : list diagnostic :=
  devWarning
    (negb (match rk with RowKeyFn n _ => Nat.ltb 1 n | RowKeyField _ => false end))
    WarnRowKeyIndex.

(** The part of [setup] that concerns row keys: the diagnostics emitted,
    then the [getRowKey] the component goes on with. *)
Definition setup (rk : row_key_prop) : list diagnostic * (record -> Z -> jsval) :=
  (rowKey_warning rk, getRowKey rk).

End RowKey.

(* ------------------------------------------------------------------ *)
(** ** Pages, notifications *)

(** The rows of pages [1..k] in turn, for a fixed [pageSize] and [total]. *)
Definition pages {R} (pag : pagination_prop) (total : option Z) (p : Z) (d : list R)
    (k : nat) : list R :=
  List.concat (map (fun i => snd (pageData pag (MergedPagination (Some (Z.of_nat i))
                                                   (Some p) total) d))
                   (seq 1 k)).

Definition is_notification {R Filters Sorter} (e : @event R Filters Sorter) : bool :=
  match e with EvOnChange _ _ _ _ _ => true | _ => false end.

Definition is_reset {R Filters Sorter} (e : @event R Filters Sorter) : bool :=
  match e with EvResetPagination => true | _ => false end.

(* ------------------------------------------------------------------ *)
(** ** Columns and layout *)

Module Layout.

(** [Breakpoint] of [_util/responsiveObserve]. *)
Inductive breakpoint := Xxl | Xl | Lg | Md | Sm | Xs.

Section Columns.
Context {Col : Type}.
(** [c.responsive]: [None] when the column has none. *)
Variable responsive : Col -> option (list breakpoint).

(** [mergedColumns] (lines 118-125): [screens] tells which breakpoints
    currently match; a column is kept when it has no [responsive] list or
    one of its breakpoints matches ([!c.responsive || c.responsive.some(...)];
    an array, even empty, is truthy). *)
Definition mergedColumns (screens : breakpoint -> bool) (columns : list Col) : list Col :=
  List.filter (fun c => match responsive c with
                        | None => true
                        | Some rs => existsb screens rs
                        end) columns.
End Columns.

(** [childrenColumnName] (line 141): [props.childrenColumnName || 'children']. *)
Definition childrenColumnName (prop : option string) : string :=
  match prop with
  | Some s => if String.eqb s "" then "children" else s
  | None => "children"
  end.

(** [ExpandType]: ['nest' | 'row' | null]. *)
Inductive expand_type := ExpandNest | ExpandRow | ExpandNull.

(** [expandType] (lines 143-153); [childTruthy item] is the truthiness of
    [item?.[childrenColumnName.value]]. *)
Definition expandType {R} (childTruthy : R -> bool) (rawData : list R)
    (expandedRowRender : bool) : expand_type :=
  if existsb childTruthy rawData then ExpandNest
  else if expandedRowRender then ExpandRow
  else ExpandNull.

(** [expandIconColumnIndex] (lines 359-367); [idx] is
    [props.expandIconColumnIndex] ([None] when undefined) and [rowSelection]
    the truthiness of [props.rowSelection]. *)
Definition expandIconColumnIndex (et : expand_type) (idx : option Z)
    (rowSelection : bool) : option Z :=
  match et, idx with
  | ExpandNest, None => Some (if rowSelection then 1 else 0)
  | _, _ =>
      if Js.lt_opt 0 idx && rowSelection then option_map (fun i => i - 1) idx
      else idx
  end.

(** [String.prototype.toLowerCase] on ASCII text. *)
Definition lower_ascii (c : Ascii.ascii) : Ascii.ascii :=
  let n := Ascii.nat_of_ascii c in
  if (65 <=? n)%nat && (n <=? 90)%nat then Ascii.ascii_of_nat (n + 32) else c.

Fixpoint toLowerCase (s : string) : string :=
  match s with
  | EmptyString => EmptyString
  | String c s' => String (lower_ascii c) (toLowerCase s')
  end.

(** Truthiness of the result of [Array.prototype.find] on strings
    (the positions found here are never [""]). *)
Definition found (o : option string) : bool :=
  match o with Some _ => true | None => false end.

(** [s.indexOf(sub) !== -1]. *)
Definition contains (sub s : string) : bool :=
  match String.index 0 sub s with Some _ => true | None => false end.

(** [s.replace(pat, rep)] with a string pattern: the first occurrence. *)
Definition replace (s pat rep : string) : string :=
  match String.index 0 pat s with
  | Some n => String.append (String.substring 0 n s)
                (String.append rep (String.substring (n + String.length pat)
                                      (String.length s) s))
  | None => s
  end.

(** The pagination nodes of the render function (lines 387-423): the
    placements of the top and of the bottom pagination ([None] when that
    node is not rendered).  [position] is [mergedPagination.value.position]
    when it is an array, [None] otherwise; [rtl] is [direction.value === 'rtl']. *)
Definition paginationNodes (pagination : pagination_prop) (totalTruthy : bool)
    (position : option (list string)) (rtl : bool) : option string * option string :=
  if negb (is_pag_false pagination) && totalTruthy then
    let defaultPosition := if rtl then "left" else "right" in
    match position with
    | Some ps =>
        let topPos := List.find (contains "top") ps in
        let bottomPos := List.find (contains "bottom") ps in
        let isDisable := forallb (fun p => String.eqb p "none") ps in
        let bottom0 := if negb (found topPos) && negb (found bottomPos)
                          && negb isDisable
                       then Some defaultPosition else None in
        let top := option_map (fun p => replace (toLowerCase p) "top" "") topPos in
        let bottom := match bottomPos with
                      | Some p => Some (replace (toLowerCase p) "bottom" "")
                      | None => bottom0
                      end in
        (top, bottom)
    | None => (None, Some defaultPosition)
    end
  else (None, None).

(** [props.loading : boolean | SpinProps | undefined] ([null] as well, of
    type ['object']); of an object, its [spinning] field. *)
Inductive field (A : Type) := Absent | PresentUndefined | Present (a : A).
Arguments Absent {A}. Arguments PresentUndefined {A}. Arguments Present {A}.

Inductive loading_prop :=
  | LoadingUndefined
  | LoadingNull
  | LoadingBool (b : bool)
  | LoadingObject (spinning : field bool).

(** The [spinning] field of [spinProps] (lines 426-436); [None] when
    [spinProps] stays undefined.  [{ spinning: true, ...loading }] keeps
    [true] unless [loading] has its own [spinning] key; spreading [null]
    adds nothing. *)
Definition spinProps (loading : loading_prop) : option (field bool) :=
  match loading with
  | LoadingBool b => Some (Present b)
  | LoadingNull => Some (Present true)
  | LoadingObject Absent => Some (Present true)
  | LoadingObject f => Some f
  | LoadingUndefined => None
  end.

(** The [spinning] prop of [<Spin spinning={false} {...spinProps}>]. *)
Definition spinSpinning (loading : loading_prop) : field bool :=
  match spinProps loading with
  | Some f => f
  | None => Present false
  end.

End Layout.

(* ------------------------------------------------------------------ *)
(** ** A concrete table

    Rows are numbers; sorter, filter and their states carry no
    information, and the sort and filter engines leave the rows as they
    are (what [getSortData] and [getFilterData] do with no active
    sorter and no active filter). *)

Module Demo.

Definition sortData (l : list Z) (_ : list unit) (_ : string) : list Z := l.
Definition filterData (l : list Z) (_ : list unit) : list Z := l.

Definition props (pag : pagination_prop) : table_props Z :=
  TableProps [1; 2; 3] "children" pag true None.

(** The state right after [setup]: [watchEffect] has run once with the
    pagination parameter [{current: 2, pageSize: 10, total: 3}]. *)
Definition initial (pag : pagination_prop) : @table_state unit unit unit unit :=
  TableState (watchEffect (props pag) tt [] tt [] (PagParam (Some 2) (Some 10) (Some 3)))
    (Some 2).

End Demo.

(* ================================================================== *)
(** * Facts *)

(** ** JavaScript slice *)

Section SliceFacts.
Context {A : Type}.

Lemma slice_nonneg (l : list A) (s e : Z) :
  0 <= s -> s <= e ->
  Js.slice l s e = take (Z.to_nat (e - s)) (drop (Z.to_nat s) l).
Proof.
  intros Hs Hse. unfold Js.slice, Js.rel_index.
  destruct (Z.ltb_spec s 0); [lia|]. destruct (Z.ltb_spec e 0); [lia|].
  set (len := Z.of_nat (length l)).
  destruct (Z.le_ge_cases s len) as [Hsl|Hsl].
  - rewrite (Z.min_l s len) by lia.
    destruct (Z.le_ge_cases e len) as [Hel|Hel].
    + rewrite Z.min_l by lia. reflexivity.
    + rewrite Z.min_r by lia.
      rewrite !take_ge; [done| |]; rewrite length_drop; subst len; lia.
  - rewrite (Z.min_r s len) by lia. rewrite Z.min_r by lia.
    rewrite !drop_ge; [rewrite !take_nil; done| |]; subst len; lia.
Qed.

Lemma slice_infix (l : list A) (s e : Z) :
  exists pre suf, l = pre ++ Js.slice l s e ++ suf.
Proof.
  unfold Js.slice.
  set (k := Z.to_nat _). set (n := Z.to_nat (Js.rel_index _ s)).
  exists (take n l), (drop k (drop n l)).
  rewrite (take_drop k (drop n l)), take_drop. done.
Qed.

Lemma slice_zero_current (l : list A) (p : Z) :
  0 < p -> Js.slice l ((0 - 1) * p) (0 * p) = [].
Proof.
  intros Hp. unfold Js.slice, Js.rel_index.
  destruct (Z.ltb_spec ((0 - 1) * p) 0); [|lia].
  destruct (Z.ltb_spec (0 * p) 0); [lia|].
  replace (Z.to_nat _) with 0%nat by lia. done.
Qed.

End SliceFacts.

(** ** Page data *)

Definition current_warning (mp : merged_pagination) : list diagnostic :=
  devWarning (0 <? default 1 (mp_current mp)) WarnCurrentPositive.

Lemma pageData_enabled {R : Type} (pag : pagination_prop) (mp : merged_pagination)
    (d : list R) (p : Z) :
  is_pag_false pag = false -> mp_pageSize mp = Some p -> p <> 0 ->
  pageData pag mp d =
    let c := default 1 (mp_current mp) in
    let len := Z.of_nat (length d) in
    if Js.lt_opt len (mp_total mp) then
      if p <? len then
        (current_warning mp ++ [WarnAsyncTotal], Js.slice d ((c - 1) * p) (c * p))
      else (current_warning mp, d)
    else (current_warning mp, Js.slice d ((c - 1) * p) (c * p)).
Proof.
  intros Hf Hps Hp. unfold pageData, current_warning.
  rewrite Hf, Hps. simpl. destruct (Z.eqb_spec p 0); [contradiction|]. done.
Qed.

(** C1 (amended). With pagination enabled and a truthy [pageSize], when
    the supplied [total] exceeds the length of the data: if the length
    does not exceed [pageSize] the whole data is returned unsliced and no
    diagnostic is emitted other than the one on a non-positive [current];
    if it does, the data is sliced at [(current-1)*pageSize, current*pageSize]
    and the async-mode warning is emitted. *)
Theorem pageData_total_exceeds {R : Type} (pag : pagination_prop) (mp : merged_pagination)
    (d : list R) (p t : Z) :
  is_pag_false pag = false -> mp_pageSize mp = Some p -> p <> 0 ->
  mp_total mp = Some t -> Z.of_nat (length d) < t ->
  (Z.of_nat (length d) <= p -> pageData pag mp d = (current_warning mp, d)) /\
  (p < Z.of_nat (length d) ->
   pageData pag mp d =
     (current_warning mp ++ [WarnAsyncTotal],
      Js.slice d ((default 1 (mp_current mp) - 1) * p) (default 1 (mp_current mp) * p))).
Proof.
  intros Hf Hps Hp Ht Hlt.
  rewrite (pageData_enabled pag mp d p Hf Hps Hp). cbv zeta.
  rewrite Ht. simpl. destruct (Z.ltb_spec (Z.of_nat (length d)) t); [|lia].
  split; intros Hcase; destruct (Z.ltb_spec p (Z.of_nat (length d))); done || lia.
Qed.

Theorem pageData_total_exceeds_witness :
  is_pag_false (PagConfig false) = false /\
  (Z.of_nat (length [1; 2; 3]) <= 10 ->
   pageData (PagConfig false) (MergedPagination (Some 1) (Some 10) (Some 100)) [1; 2; 3]
   = (current_warning (MergedPagination (Some 1) (Some 10) (Some 100)), [1; 2; 3])).
Proof.
  split; [reflexivity|].
  apply (pageData_total_exceeds (PagConfig false)
           (MergedPagination (Some 1) (Some 10) (Some 100)) [1; 2; 3] 10 100);
    simpl; (reflexivity || lia).
Defined.

(** C1 fails as stated: with [total] = 100, three loaded rows and
    [pageSize] = 10, the three rows are returned but no diagnostic is. *)
Lemma pageData_total_exceeds_no_diagnostic :
  ~ (snd (pageData (PagConfig false) (MergedPagination (Some 1) (Some 10) (Some 100))
            [1; 2; 3]) = [1; 2; 3] /\
     fst (pageData (PagConfig false) (MergedPagination (Some 1) (Some 10) (Some 100))
            [1; 2; 3]) <> []).
Proof. vm_compute. intros [_ Hne]. apply Hne. reflexivity. Qed.

(** C4. With pagination enabled, a positive [current] and [pageSize], and
    a data length at least the configured [total] (or no total), the page
    is [data.slice((current-1)*pageSize, current*pageSize)], that is
    [pageSize] rows from row [(current-1)*pageSize] on, and no diagnostic
    is emitted; with [pageSize] = 2, [current] = 2 and three rows it is
    the row at index 2. *)
Theorem pageData_slice {R : Type} (pag : pagination_prop) (mp : merged_pagination)
    (d : list R) (c p : Z) :
  is_pag_false pag = false -> mp_current mp = Some c -> mp_pageSize mp = Some p ->
  0 < c -> 0 < p ->
  (forall t, mp_total mp = Some t -> t <= Z.of_nat (length d)) ->
  pageData pag mp d = ([], Js.slice d ((c - 1) * p) (c * p)) /\
  Js.slice d ((c - 1) * p) (c * p) = take (Z.to_nat p) (drop (Z.to_nat ((c - 1) * p)) d) /\
  (forall (a b e : R) (tot : option Z),
     (forall t, tot = Some t -> t <= 3) ->
     snd (pageData pag (MergedPagination (Some 2) (Some 2) tot) [a; b; e]) = [e]).
Proof.
  intros Hf Hc Hps Hc0 Hp0 Ht. split; [|split].
  - rewrite (pageData_enabled pag mp d p Hf Hps ltac:(lia)). cbv zeta.
    unfold current_warning. rewrite Hc. simpl.
    destruct (Z.ltb_spec 0 c); [|lia].
    destruct (mp_total mp) as [t|] eqn:E; simpl; [|done].
    specialize (Ht t eq_refl). destruct (Z.ltb_spec (Z.of_nat (length d)) t); [lia|done].
  - rewrite slice_nonneg by nia. f_equal. lia.
  - intros a b e tot Htot. unfold pageData. rewrite Hf. simpl.
    destruct tot as [t|]; simpl; [|reflexivity].
    specialize (Htot t eq_refl). destruct (Z.ltb_spec (Z.of_nat 3) t); [simpl in *; lia|reflexivity].
Qed.

Theorem pageData_slice_witness :
  is_pag_false (PagConfig true) = false /\
  pageData (PagConfig true) (MergedPagination (Some 2) (Some 2) (Some 3)) [1; 2; 3]
  = ([], Js.slice [1; 2; 3] ((2 - 1) * 2) (2 * 2)).
Proof.
  split; [reflexivity|].
  apply (pageData_slice (PagConfig true) (MergedPagination (Some 2) (Some 2) (Some 3))
           [1; 2; 3] 2 2); simpl; try reflexivity; try lia.
  intros t Ht. injection Ht as <-. lia.
Defined.

(** C7 (amended). With pagination enabled, a truthy [pageSize] and a
    non-positive [current], the [current] diagnostic is emitted and the
    page is computed by the rules for a positive [current]: the whole
    data when [total] exceeds its length and the length does not exceed
    [pageSize], otherwise [data.slice((current-1)*pageSize, current*pageSize)]
    with JavaScript's negative indices, which is empty for [current] = 0. *)
Theorem pageData_nonpositive_current {R : Type} (pag : pagination_prop) (mp : merged_pagination)
    (d : list R) (c p : Z) :
  is_pag_false pag = false -> mp_current mp = Some c -> mp_pageSize mp = Some p ->
  p <> 0 -> c <= 0 ->
  WarnCurrentPositive ∈ fst (pageData pag mp d) /\
  snd (pageData pag mp d) =
    (if Js.lt_opt (Z.of_nat (length d)) (mp_total mp) && (Z.of_nat (length d) <=? p)
     then d else Js.slice d ((c - 1) * p) (c * p)) /\
  (c = 0 -> 0 < p -> snd (pageData pag mp d) = [] \/
     (Js.lt_opt (Z.of_nat (length d)) (mp_total mp) = true /\
      Z.of_nat (length d) <= p /\ snd (pageData pag mp d) = d)).
Proof.
  intros Hf Hc Hps Hp Hc0.
  rewrite (pageData_enabled pag mp d p Hf Hps Hp). cbv zeta.
  unfold current_warning. rewrite Hc. simpl.
  destruct (Z.ltb_spec 0 c); [lia|]. simpl.
  destruct (Js.lt_opt _ _) eqn:Elt; simpl;
    [destruct (Z.ltb_spec p (Z.of_nat (length d)));
     destruct (Z.leb_spec (Z.of_nat (length d)) p); simpl; try lia|].
  - split; [set_solver|]. split; [done|]. intros -> Hp0. left. by apply slice_zero_current.
  - split; [set_solver|]. split; [done|]. intros _ _. right. done.
  - split; [set_solver|]. split; [done|]. intros -> Hp0. left. by apply slice_zero_current.
Qed.

Theorem pageData_nonpositive_current_witness :
  is_pag_false (PagConfig false) = false /\
  WarnCurrentPositive ∈ fst (pageData (PagConfig false)
                               (MergedPagination (Some 0) (Some 10) (Some 3)) [1; 2; 3]).
Proof.
  split; [reflexivity|].
  apply (pageData_nonpositive_current (PagConfig false)
           (MergedPagination (Some 0) (Some 10) (Some 3)) [1; 2; 3] 0 10);
    simpl; (reflexivity || lia).
Defined.

(** C7 fails as stated: with [current] = 0, [pageSize] = 10 and three
    rows (all loaded, [total] = 3) the page is empty, not the rows. *)
Lemma pageData_zero_current_empty :
  pageData (PagConfig false) (MergedPagination (Some 0) (Some 10) (Some 3)) [1; 2; 3]
  = ([WarnCurrentPositive], []) /\ [1; 2; 3] <> [].
Proof. split; [vm_compute; reflexivity | discriminate]. Qed.

(** C9. When [pagination] is not [false] but the merged [pageSize] is
    falsy ([undefined] or 0), the page is the whole data, as with
    pagination disabled, and no diagnostic is emitted. *)
Theorem pageData_falsy_pageSize {R : Type} (pag : pagination_prop) (mp : merged_pagination)
    (d : list R) :
  mp_pageSize mp = None \/ mp_pageSize mp = Some 0 ->
  pageData pag mp d = ([], d) /\ pageData pag mp d = pageData PagFalse mp d.
Proof.
  intros Hps. unfold pageData.
  assert (Js.truthy (mp_pageSize mp) = false) as ->
    by (destruct Hps as [-> | ->]; reflexivity).
  rewrite orb_true_r. simpl. done.
Qed.

Theorem pageData_falsy_pageSize_witness :
  pageData (PagConfig true) (MergedPagination (Some 2) (Some 0) (Some 100)) [1; 2; 3]
  = ([], [1; 2; 3]).
Proof.
  apply (pageData_falsy_pageSize (PagConfig true)
           (MergedPagination (Some 2) (Some 0) (Some 100)) [1; 2; 3]).
  right. reflexivity.
Defined.


(** ** Change notifications *)

(** Splits a membership in a list built from [++], [::] and [[]]. *)
Ltac elem_cases H :=
  repeat rewrite ?elem_of_app, ?elem_of_cons, ?elem_of_nil in H;
  repeat match type of H with
         | _ \/ _ => destruct H as [H|H]
         | False => destruct H
         end.

Lemma pageData_infix {R : Type} (pag : pagination_prop) (mp : merged_pagination)
    (d : list R) :
  exists pre suf, d = pre ++ snd (pageData pag mp d) ++ suf.
Proof.
  unfold pageData.
  destruct (_ || _); [exists [], []; by rewrite app_nil_r|].
  destruct (Js.lt_opt _ _); [destruct (_ <? _)|]; simpl;
    try apply slice_infix. exists [], []. by rewrite app_nil_r.
Qed.

Section PipelineFacts.
Context {R Filters Sorter FilterState SortState : Type}.
Variable getSortData : list R -> list SortState -> string -> list R.
Variable getFilterData : list R -> list FilterState -> list R.

Abbreviation trigger := (triggerOnChange getSortData getFilterData).
Abbreviation interact' := (interact getSortData getFilterData).

Lemma scroll_events (p : table_props R) (b : bool) :
  (match tp_scroll p with
   | Some stfr => if bool_decide (stfr <> Some false) && b then [EvScrollTo] else []
   | None => []
   end = @nil (@event R Filters Sorter) \/
   match tp_scroll p with
   | Some stfr => if bool_decide (stfr <> Some false) && b then [EvScrollTo] else []
   | None => []
   end = [@EvScrollTo R Filters Sorter]).
Proof. destruct (tp_scroll p); [destruct (_ && _)|]; auto. Qed.

(** C3 (amended). A call of [triggerOnChange] with [reset] invokes the
    pagination reset first; then, when [pagination] is a configuration
    with an [onChange] handler, calls it with [(1, pageSize)]; then
    possibly scrolls to the top; and last emits the notification (when
    [onChange] is configured).  The notification's [pagination] is the
    merged one with [current] set to 1 when its [current] was truthy and
    left unchanged otherwise (absent for the [{}] of disabled
    pagination). *)
Theorem triggerOnChange_reset_order (p : table_props R) (b : bool)
    (st : table_state) (info : change_info) (a : table_action) :
  let r := trigger p b st info a true in
  let pag0 := default (ce_pagination (ts_info st)) (ci_pagination info) in
  let pag := if Js.truthy (pp_current pag0) then set_pag_current (Some 1) pag0 else pag0 in
  ts_innerCurrent r.1 = Some 1 /\
  (Js.truthy (pp_current pag0) = true -> pp_current pag = Some 1) /\
  (Js.truthy (pp_current pag0) = false -> pp_current pag = pp_current pag0) /\
  let f := default (ce_filters (ts_info st)) (ci_filters info) in
  let s := default (ce_sorter (ts_info st)) (ci_sorter info) in
  let cds := mergedData getSortData getFilterData p
               (default (ce_sorterStates (ts_info st)) (ci_sorterStates info))
               (default (ce_filterStates (ts_info st)) (ci_filterStates info)) in
  exists sc, (sc = [] \/ sc = [EvScrollTo]) /\
    r.2 = EvResetPagination ::
            (match tp_pagination p with
             | PagConfig true => [EvPaginationOnChange 1 (pp_pageSize pag0)]
             | _ => @nil (@event R Filters Sorter)
             end) ++ sc ++
            (if tp_onChange p then [EvOnChange pag f s cds a] else []).
Proof.
  cbv zeta. split; [|split; [|split]].
  - unfold triggerOnChange. simpl. destruct (ci_pagination info); reflexivity.
  - intros ->. reflexivity.
  - intros ->. reflexivity.
  - eexists. split; [apply (scroll_events p b)|].
    unfold triggerOnChange. simpl.
    destruct (Js.truthy _) eqn:Et; [|destruct (ci_pagination info)];
      destruct (tp_pagination p) as [| |[]]; reflexivity.
Qed.

(** C2. A filter change resets pagination (the reset is the first effect
    and leaves [current] at 1) and is notified with action [filter],
    whose [pagination.current] is 1 when it was truthy; a sort change and
    a pagination change leave the state as it was, never invoke the
    reset, and are notified with the snapshot's [current] and the new
    [current] respectively. *)
Theorem interaction_reset_rule (p : table_props R) (b : bool) (st : table_state) :
  (forall (f : Filters) (fs : list FilterState),
     let r := interact' p b st (IFilter f fs) in
     ts_innerCurrent r.1 = Some 1 /\ head r.2 = Some EvResetPagination /\
     (tp_onChange p = true ->
      exists pg cds, EvOnChange pg f (ce_sorter (ts_info st)) cds ActFilter ∈ r.2 /\
        (Js.truthy (pp_current (ce_pagination (ts_info st))) = true ->
         pp_current pg = Some 1))) /\
  (forall (s : Sorter) (ss : list SortState),
     let r := interact' p b st (ISort s ss) in
     r.1 = st /\ (EvResetPagination ∉ r.2) /\
     (tp_onChange p = true ->
      exists cds, EvOnChange (ce_pagination (ts_info st)) (ce_filters (ts_info st)) s cds
                    ActSort ∈ r.2)) /\
  (forall (c ps : Z),
     let r := interact' p b st (IPage c ps) in
     r.1 = st /\ (EvResetPagination ∉ r.2) /\
     (tp_onChange p = true ->
      exists cds, EvOnChange (PagParam (Some c) (Some ps)
                                (pp_total (ce_pagination (ts_info st))))
                    (ce_filters (ts_info st)) (ce_sorter (ts_info st)) cds ActPaginate ∈ r.2)).
Proof.
  split; [|split].
  - intros f fs. cbv zeta.
    destruct (triggerOnChange_reset_order p b st
                (ChangeInfo None (Some f) None (Some fs) None) ActFilter)
      as (Hcur & Ht & _ & sc & _ & Hev).
    unfold interact, onFilterChange. simpl in Ht. split; [exact Hcur|]. split.
    + rewrite Hev. reflexivity.
    + intros Hon. rewrite Hev, Hon. eexists _, _. split.
      * rewrite elem_of_cons, !elem_of_app. right. right. right. left.
      * exact Ht.
  - intros s ss. cbv zeta. unfold onSorterChange, triggerOnChange. simpl.
    split; [reflexivity|]. split.
    + intros H. elem_cases H; try discriminate.
      destruct (tp_scroll p); [destruct (_ && _)|]; elem_cases H; try discriminate.
      destruct (tp_onChange p); elem_cases H; discriminate.
    + intros ->. eexists. rewrite elem_of_app. right. left.
  - intros c ps. cbv zeta. unfold onPaginationChange, triggerOnChange. simpl.
    split; [reflexivity|]. split.
    + intros H. elem_cases H; try discriminate.
      destruct (tp_scroll p); [destruct (_ && _)|]; elem_cases H; try discriminate.
      destruct (tp_onChange p); elem_cases H; discriminate.
    + intros ->. eexists. rewrite elem_of_app. right. left.
Qed.

(** C5. The displayed rows are a contiguous run of [mergedData], which is
    the raw data sorted by [getSortData] first and filtered by
    [getFilterData] second; the [currentDataSource] of every notification
    is the same composition, sort then filter, applied to the raw data
    with the notified sorter and filter states, and is not paginated. *)
Theorem pipeline_sort_then_filter (p : table_props R) (ss : list SortState)
    (fs : list FilterState) (pag : pagination_prop) (mp : merged_pagination)
    (b : bool) (st : table_state) (info : change_info) (a : table_action)
    (reset : bool) :
  mergedData getSortData getFilterData p ss fs =
    getFilterData (getSortData (rawData p) ss (tp_childrenColumnName p)) fs /\
  (exists pre suf,
     mergedData getSortData getFilterData p ss fs =
       pre ++ snd (pageData pag mp (mergedData getSortData getFilterData p ss fs)) ++ suf) /\
  (forall pg (f : Filters) (s : Sorter) (cds : list R) a',
     EvOnChange pg f s cds a' ∈ (trigger p b st info a reset).2 ->
     a' = a /\
     cds = getFilterData
             (getSortData (rawData p)
                (default (ce_sorterStates (ts_info st)) (ci_sorterStates info))
                (tp_childrenColumnName p))
             (default (ce_filterStates (ts_info st)) (ci_filterStates info))).
Proof.
  split; [reflexivity|]. split; [apply pageData_infix|].
  intros pg f s cds a' H. unfold triggerOnChange in H. simpl in H.
  destruct reset; [destruct (ci_pagination info), (Js.truthy _),
                   (tp_pagination p) as [| |[]]|]; simpl in H;
    elem_cases H; try discriminate;
    destruct (tp_scroll p); try destruct (_ && _); elem_cases H; try discriminate;
    destruct (tp_onChange p); elem_cases H; try discriminate;
    injection H as -> -> -> -> ->; auto.
Qed.

Lemma interact_pagination_false (p : table_props R) (mp : merged_pagination)
    (b : bool) (st : table_state) (i : interaction) :
  tp_pagination p = PagFalse -> ce_pagination (ts_info st) = empty_pag_param ->
  interaction_enabled p mp i = true ->
  ce_pagination (ts_info (interact' p b st i).1) = empty_pag_param /\
  (forall pg (f : Filters) (s : Sorter) (cds : list R) a,
     EvOnChange pg f s cds a ∈ (interact' p b st i).2 -> pg = empty_pag_param).
Proof.
  intros Hp Hst Hen.
  destruct i as [f fs|s ss|c ps]; simpl in Hen;
    [| |unfold pagination_rendered in Hen; rewrite Hp in Hen; discriminate].
  all: unfold interact, onFilterChange, onSorterChange, triggerOnChange; simpl;
    rewrite ?Hp, ?Hst; simpl; split; [done|].
  all: intros pg f' s' cds a H;
    elem_cases H; try discriminate;
    destruct (tp_scroll p); try destruct (_ && _); elem_cases H; try discriminate;
    destruct (tp_onChange p); elem_cases H; try discriminate;
    injection H as -> _ _ _ _; reflexivity.
Qed.

Lemma run_pagination_false (p : table_props R) (mp : merged_pagination)
    (b : bool) (steps : list (@step Filters Sorter FilterState SortState)) :
  tp_pagination p = PagFalse ->
  forall st, ce_pagination (ts_info st) = empty_pag_param ->
  forall pg (f : Filters) (s : Sorter) (cds : list R) a,
    EvOnChange pg f s cds a ∈ (run getSortData getFilterData p mp b st steps).2 ->
    pg = empty_pag_param.
Proof.
  intros Hp. induction steps as [|[i|s0 ss0 f0 fs0 prm] rest IH]; intros st Hst pg f s cds a H.
  - simpl in H. elem_cases H.
  - simpl in H. destruct (interaction_enabled p mp i) eqn:Hen; [|exact (IH st Hst _ _ _ _ _ H)].
    destruct (interact_pagination_false p mp b st i Hp Hst Hen) as [Hst1 Hev].
    destruct (interact _ _ p b st i) as [st1 ev1] eqn:Hi.
    destruct (run _ _ p mp b st1 rest) as [st2 ev2] eqn:Hr.
    simpl in H, Hst1, Hev. apply elem_of_app in H as [H|H].
    + exact (Hev _ _ _ _ _ H).
    + apply (IH st1 Hst1 pg f s cds a). rewrite Hr. exact H.
  - simpl in H. eapply IH; [|exact H]. simpl. unfold watchEffect. rewrite Hp. reflexivity.
Qed.

(** C10. While [pagination] is [false], every notification of any run of
    the component (from the state [watchEffect] sets up, through filter
    and sort changes, the interactions available without a pagination
    widget, and re-runs of [watchEffect]) carries the empty object [{}]
    as its [pagination]. *)
Theorem onChange_pagination_false (p : table_props R) (mp : merged_pagination)
    (b : bool) (s0 : Sorter) (ss0 : list SortState) (f0 : Filters)
    (fs0 : list FilterState) (prm : pag_param) (ic : option Z)
    (steps : list (@step Filters Sorter FilterState SortState)) :
  tp_pagination p = PagFalse ->
  forall pg (f : Filters) (s : Sorter) (cds : list R) a,
    EvOnChange pg f s cds a ∈
      (run getSortData getFilterData p mp b
         (TableState (watchEffect p s0 ss0 f0 fs0 prm) ic) steps).2 ->
    pg = empty_pag_param.
Proof.
  intros Hp. apply (run_pagination_false p mp b steps Hp).
  simpl. unfold watchEffect. rewrite Hp. reflexivity.
Qed.

End PipelineFacts.

(** ** Row keys *)

(** C6. A function [rowKey] resolves the key of [(record, index)] by
    applying itself to them; a field name resolves it to that field of the
    record, and to [undefined] when the field or the record is missing. *)
Theorem getRowKey_resolves :
  (forall n f (r : RowKey.record) (i : Z),
     RowKey.getRowKey (RowKey.RowKeyFn n f) r i = f r i) /\
  (forall field (o : gmap string RowKey.jsval) (i : Z),
     RowKey.getRowKey (RowKey.RowKeyField field) (Some o) i =
       default RowKey.JUndefined (o !! field)) /\
  (forall field (i : Z),
     RowKey.getRowKey (RowKey.RowKeyField field) None i = RowKey.JUndefined).
Proof. split; [|split]; reflexivity. Qed.

(** C8. A [rowKey] function declaring more than one parameter (the index,
    or more positional context still) makes [setup] emit the deprecation
    warning, and [setup] goes on with that function as [getRowKey]. *)
Theorem setup_rowKey_arity_warning (n : nat) (f : RowKey.record -> Z -> RowKey.jsval) :
  (1 < n)%nat -> RowKey.setup (RowKey.RowKeyFn n f) = ([WarnRowKeyIndex], f).
Proof.
  intros Hn. unfold RowKey.setup, RowKey.rowKey_warning.
  destruct (Nat.ltb_spec 1 n); [reflexivity|lia].
Qed.

Theorem setup_rowKey_arity_warning_witness :
  (1 < 3)%nat /\
  RowKey.setup (RowKey.RowKeyFn 3 (fun _ _ => RowKey.JUndefined)) =
    ([WarnRowKeyIndex], fun _ _ => RowKey.JUndefined).
Proof.
  split; [lia|]. apply (setup_rowKey_arity_warning 3 (fun _ _ => RowKey.JUndefined)). lia.
Defined.

(** ** The concrete table *)

(** C3 fails as stated: with [pagination] = [false] a filter change
    resets pagination and notifies, but the notified [pagination] is
    [{}], whose [current] is absent rather than 1. *)
Lemma reset_notification_without_current :
  (onFilterChange Demo.sortData Demo.filterData (Demo.props PagFalse) false
     (Demo.initial PagFalse) tt []).2 =
    [EvResetPagination; EvOnChange empty_pag_param tt tt [1; 2; 3] ActFilter] /\
  pp_current empty_pag_param <> Some 1.
Proof. split; [reflexivity | discriminate]. Qed.

Theorem onChange_pagination_false_witness :
  tp_pagination (Demo.props PagFalse) = PagFalse /\
  EvOnChange empty_pag_param tt tt [1; 2; 3] ActFilter ∈
    (run Demo.sortData Demo.filterData (Demo.props PagFalse)
       (MergedPagination None None None) false (Demo.initial PagFalse)
       [SInteract (IFilter tt []); SInteract (IPage 2 10)]).2 /\
  empty_pag_param = empty_pag_param.
Proof.
  assert (Hin : EvOnChange empty_pag_param tt tt [1; 2; 3] ActFilter ∈
    (run Demo.sortData Demo.filterData (Demo.props PagFalse)
       (MergedPagination None None None) false (Demo.initial PagFalse)
       [SInteract (IFilter tt []); SInteract (IPage 2 10)]).2)
    by (simpl; right; left).
  split; [reflexivity|]. split; [exact Hin|].
  exact (onChange_pagination_false Demo.sortData Demo.filterData (Demo.props PagFalse)
           (MergedPagination None None None) false tt [] tt []
           (PagParam (Some 2) (Some 10) (Some 3)) (Some 2)
           [SInteract (IFilter tt []); SInteract (IPage 2 10)] eq_refl
           empty_pag_param tt tt [1; 2; 3] ActFilter Hin).
Defined.

(** ** Pages *)

Lemma slice_length_le {A} (l : list A) (s e : Z) :
  s <= e -> (length (Js.slice l s e) <= Z.to_nat (e - s))%nat.
Proof.
  intros Hse. unfold Js.slice, Js.rel_index. rewrite length_take.
  set (len := Z.of_nat (length l)).
  assert (0 <= len) by (subst len; lia).
  destruct (Z.ltb_spec s 0), (Z.ltb_spec e 0); lia.
Qed.

(** With pagination enabled and a positive [pageSize], a page never has
    more than [pageSize] rows, whatever [current] and [total] are. *)
Theorem pageData_length_le_pageSize {R : Type} (pag : pagination_prop)
    (mp : merged_pagination) (d : list R) (p : Z) :
  is_pag_false pag = false -> mp_pageSize mp = Some p -> 0 < p ->
  (length (snd (pageData pag mp d)) <= Z.to_nat p)%nat.
Proof.
  intros Hf Hps Hp.
  rewrite (pageData_enabled pag mp d p Hf Hps ltac:(lia)). cbv zeta.
  set (c := default 1 (mp_current mp)).
  assert (Hsl : (length (Js.slice d ((c - 1) * p) (c * p)) <= Z.to_nat p)%nat).
  { etransitivity; [apply slice_length_le; nia|]. lia. }
  destruct (Js.lt_opt _ _); [destruct (Z.ltb_spec p (Z.of_nat (length d)))|];
    simpl; lia.
Qed.

Theorem pageData_length_le_pageSize_witness :
  is_pag_false (PagConfig false) = false /\
  Nat.le (length (snd (pageData (PagConfig false) (MergedPagination (Some (-1)) (Some 2) None)
                  [1; 2; 3; 4; 5]))) 2.
Proof.
  split; [reflexivity|].
  apply (pageData_length_le_pageSize (PagConfig false)
           (MergedPagination (Some (-1)) (Some 2) None) [1; 2; 3; 4; 5] 2);
    (reflexivity || lia).
Defined.

Lemma pageData_page {R : Type} (pag : pagination_prop) (total : option Z)
    (d : list R) (c p : Z) :
  is_pag_false pag = false -> 0 < c -> 0 < p ->
  (forall t, total = Some t -> t <= Z.of_nat (length d)) ->
  snd (pageData pag (MergedPagination (Some c) (Some p) total) d) =
    take (Z.to_nat p) (drop (Z.to_nat ((c - 1) * p)) d).
Proof.
  intros Hf Hc Hp Ht.
  rewrite (pageData_enabled pag (MergedPagination (Some c) (Some p) total) d p Hf eq_refl ltac:(lia)). cbv zeta. simpl.
  assert (Hlt : Js.lt_opt (Z.of_nat (length d)) total = false).
  { destruct total as [t|]; [|reflexivity]. simpl. specialize (Ht t eq_refl). lia. }
  rewrite Hlt. simpl. rewrite slice_nonneg by nia. f_equal. lia.
Qed.

Lemma pages_take {R : Type} (pag : pagination_prop) (total : option Z)
    (d : list R) (p : Z) (k : nat) :
  is_pag_false pag = false -> 0 < p ->
  (forall t, total = Some t -> t <= Z.of_nat (length d)) ->
  pages pag total p d k = take (k * Z.to_nat p) d.
Proof.
  intros Hf Hp Ht. induction k as [|k IH].
  - reflexivity.
  - unfold pages in *. rewrite seq_S, map_app, concat_app, IH. simpl.
    rewrite app_nil_r.
    erewrite pageData_page; [|exact Hf|lia|exact Hp|exact Ht].
    match goal with |- context [drop (Z.to_nat ?x) d] =>
      replace (Z.to_nat x) with (k * Z.to_nat p)%nat by nia end.
    rewrite take_take_drop. f_equal. lia.
Qed.

(** With pagination enabled, a positive [pageSize] and every row loaded
    ([total] at most the data length, or absent), pages [1..k] together
    are the first [k * pageSize] rows in order; once [k * pageSize]
    reaches the data length they are exactly the data. *)
Theorem pages_cover_data {R : Type} (pag : pagination_prop) (total : option Z)
    (d : list R) (p : Z) (k : nat) :
  is_pag_false pag = false -> 0 < p ->
  (forall t, total = Some t -> t <= Z.of_nat (length d)) ->
  pages pag total p d k = take (k * Z.to_nat p) d /\
  ((length d <= k * Z.to_nat p)%nat -> pages pag total p d k = d).
Proof.
  intros Hf Hp Ht. rewrite (pages_take pag total d p k Hf Hp Ht).
  split; [reflexivity|]. intros Hk. by apply take_ge.
Qed.

Theorem pages_cover_data_witness :
  is_pag_false (PagConfig true) = false /\
  pages (PagConfig true) (Some 5) 2 [1; 2; 3; 4; 5] 3 = [1; 2; 3; 4; 5].
Proof.
  split; [reflexivity|].
  refine (proj2 (pages_cover_data (PagConfig true) (Some 5) [1; 2; 3; 4; 5] 2 3
                   eq_refl ltac:(lia) _) ltac:(simpl; lia)).
  intros t Ht. injection Ht as <-. simpl. lia.
Defined.

(** ** Notifications over interactions *)

Section TriggerFacts.
Context {R Filters Sorter FilterState SortState : Type}.
Variable getSortData : list R -> list SortState -> string -> list R.
Variable getFilterData : list R -> list FilterState -> list R.

Abbreviation trigger := (triggerOnChange getSortData getFilterData).
Abbreviation interact' := (interact getSortData getFilterData).

(** Unfolds one interaction down to its list of events. *)
Ltac unfold_interaction :=
  unfold interact, onFilterChange, onSorterChange, onPaginationChange, triggerOnChange;
  simpl.

(** Every case of the branches of [triggerOnChange]. *)
Ltac branch_cases :=
  repeat match goal with
         | |- context [Js.truthy ?x] => destruct (Js.truthy x)
         | |- context [match tp_pagination ?p with _ => _ end] =>
             destruct (tp_pagination p) as [| |[]]
         | |- context [match tp_scroll ?p with _ => _ end] =>
             destruct (tp_scroll p) as [?stfr|] eqn:?Esc
         | |- context [if bool_decide ?P && ?b then _ else _] =>
             destruct (bool_decide P && b) eqn:?Ebd
         | |- context [if tp_onChange ?p then _ else _] => destruct (tp_onChange p)
         end; simpl.



Lemma interact_counts (p : table_props R) (b : bool) (st : table_state)
    (i : interaction) :
  length (List.filter (@is_notification R Filters Sorter) (interact' p b st i).2) =
    (if tp_onChange p then 1 else 0)%nat /\
  length (List.filter (@is_reset R Filters Sorter) (interact' p b st i).2) =
    (match i with IFilter _ _ => 1 | _ => 0 end)%nat.
Proof.
  destruct i; unfold_interaction; branch_cases; auto.
Qed.

(** Over any run, each interaction that can happen (a pagination change
    only while the pagination widget is shown) yields exactly one
    notification when [onChange] is configured and none otherwise, and
    the pagination reset runs exactly once per filter change. *)
Theorem run_counts (p : table_props R) (mp : merged_pagination) (b : bool)
    (st : table_state) (steps : list (@step Filters Sorter FilterState SortState)) :
  length (List.filter (@is_notification R Filters Sorter) (run getSortData getFilterData p mp b st steps).2) =
    (if tp_onChange p
     then length (List.filter (fun s => match s with
                                        | SInteract i => interaction_enabled p mp i
                                        | SSync _ _ _ _ _ => false
                                        end) steps)
     else 0)%nat /\
  length (List.filter (@is_reset R Filters Sorter) (run getSortData getFilterData p mp b st steps).2) =
    length (List.filter (fun s => match s with
                                  | SInteract (IFilter _ _) => true
                                  | _ => false
                                  end) steps).
Proof.
  revert st. induction steps as [|[i|s0 ss0 f0 fs0 prm] rest IH]; intros st.
  - simpl. destruct (tp_onChange p); auto.
  - simpl. destruct (interaction_enabled p mp i) eqn:Hen.
    + destruct (interact_counts p b st i) as [Hn Hr].
      destruct (interact _ _ p b st i) as [st1 ev1] eqn:Hi.
      destruct (IH st1) as [IHn IHr].
      destruct (run _ _ p mp b st1 rest) as [st2 ev2] eqn:Hr2. simpl in *.
      rewrite !List.filter_app, !length_app, Hn, Hr, IHn, IHr.
      split; [destruct (tp_onChange p); simpl; lia|].
      destruct i; simpl; lia.
    + destruct (IH st) as [IHn IHr]. rewrite IHn, IHr.
      destruct i; simpl in Hen |- *; [discriminate|discriminate|].
      split; [destruct (tp_onChange p)|]; reflexivity.
  - simpl. apply IH.
Qed.


End TriggerFacts.



(** ** Columns and layout *)



Lemma find_none_existsb {A} (f : A -> bool) (l : list A) :
  List.find f l = None <-> existsb f l = false.
Proof.
  induction l as [|x l IH]; simpl; [done|].
  destruct (f x); simpl; [split; discriminate|exact IH].
Qed.

Lemma all_none_find (ps : list string) (sub : string) :
  forallb (fun p => String.eqb p "none") ps = true ->
  Layout.contains sub "none" = false ->
  List.find (Layout.contains sub) ps = None.
Proof.
  intros Hall Hn. induction ps as [|x ps IH]; simpl in *; [done|].
  apply andb_true_iff in Hall as [Hx Hall]. apply String.eqb_eq in Hx as ->.
  rewrite Hn. exact (IH Hall).
Qed.

(** No pagination is rendered when [pagination] is [false], when the
    merged [total] is falsy, or when [position] is an array whose entries
    are all ['none'], the empty array included. *)
Theorem paginationNodes_hidden (pag : pagination_prop) (totalTruthy : bool)
    (position : option (list string)) (rtl : bool) :
  is_pag_false pag = true \/ totalTruthy = false \/
  (exists ps, position = Some ps /\ forallb (fun p => String.eqb p "none") ps = true) ->
  Layout.paginationNodes pag totalTruthy position rtl = (None, None).
Proof.
  intros H. unfold Layout.paginationNodes.
  destruct H as [H|[H|(ps & -> & Hall)]].
  - rewrite H. reflexivity.
  - rewrite H, andb_false_r. reflexivity.
  - destruct (negb (is_pag_false pag) && totalTruthy); [|reflexivity].
    rewrite (all_none_find ps "top" Hall eq_refl), (all_none_find ps "bottom" Hall eq_refl), Hall.
    simpl. destruct (negb (Layout.found None)); reflexivity.
Qed.

Theorem paginationNodes_hidden_witness :
  Layout.paginationNodes (PagConfig false) true (Some []) false = (None, None).
Proof.
  apply (paginationNodes_hidden (PagConfig false) true (Some []) false).
  right. right. exists []. split; reflexivity.
Defined.



